(** * gensim.corpora.indexedcorpus: random access over a serialized corpus

    A shallow embedding of [IndexedCorpus] (its constructor, [serialize],
    [__len__] and [__getitem__]) together with the properties of the
    indexing mechanism: what is written when, what is loaded when, and
    which error each operation raises.

    The class talks to three collaborators it does not implement: the
    concrete corpus format (the [serializer] class: [save_corpus],
    [docbyoffset], iteration), the pickling helpers of [gensim.utils], and
    the file system underneath both.  They appear here as interfaces; every
    call the class makes to one of them is recorded, in order, so that
    "is never invoked" and "without scanning the stream" are statements
    about a list.  Logging is left out. *)

From stdpp Require Import gmap strings list.
From Stdlib Require Import ZArith Lia.

Open Scope string_scope.
Open Scope Z_scope.

(** ** Python values and exceptions *)

(** The objects that cross this class: [None], integers (byte offsets,
    counters), strings (paths) and lists (an offset index, a document). *)
#[warnings="-register-all"]
Inductive PyObj : Type :=
  | PyNone
  | PyInt (n : Z)
  | PyStr (s : string)
  | PyList (items : list PyObj).

(** [x is None] and [x is not None]. *)
Definition is_none (x : PyObj) : bool :=
  match x with PyNone => true | _ => false end.

(** The exceptions that can surface.  [ValueError], [NotImplementedError]
    and [RuntimeError] are the ones this class raises itself, with the
    message it gives them; [IndexError] and [TypeError] come from the
    interpreter, in [len()] and in subscripting, and their wording is left
    out; the rest come from the collaborators. *)
Inductive Exn : Type :=
  | ValueError (msg : string)
  | NotImplementedError (msg : string)
  | RuntimeError (msg : string)
  | IndexError
  | TypeError
  | IOError (msg : string)
  | UnpicklingError (msg : string)
  | OtherError (kind msg : string).

Inductive Result (A : Type) : Type :=
  | Ok (a : A)
  | Raise (e : Exn).
Arguments Ok {A} a.
Arguments Raise {A} e.

(** [len(x)]: defined on lists and strings, a [TypeError] elsewhere. *)
Definition py_len (x : PyObj) : Result nat :=
  match x with
  | PyList items => Ok (length items)
  | PyStr s => Ok (String.length s)
  | PyInt _ => Raise TypeError
  | PyNone => Raise TypeError
  end.

(** Python's normalisation of an integer subscript against a sequence of
    [n] elements: a negative subscript counts from the end; what is still
    outside [0, n) afterwards is out of range. *)
Definition norm_index (n : nat) (i : Z) : option nat :=
  let i' := if i <? 0 then i + Z.of_nat n else i in
  if (i' <? 0) || (Z.of_nat n <=? i') then None else Some (Z.to_nat i').

(** [x[i]] for an integer [i]. *)
Definition py_getitem (x : PyObj) (i : Z) : Result PyObj :=
  match x with
  | PyList items =>
      match norm_index (length items) i with
      | Some k =>
          match items !! k with
          | Some v => Ok v
          | None => Raise IndexError
          end
      | None => Raise IndexError
      end
  | PyStr s =>
      match norm_index (String.length s) i with
      | Some k =>
          match String.get k s with
          | Some c => Ok (PyStr (String c EmptyString))
          | None => Raise IndexError
          end
      | None => Raise IndexError
      end
  | PyInt _ => Raise TypeError
  | PyNone => Raise TypeError
  end.

(** [a == b] where [a] is a string: equal strings only. *)
Definition py_str_eq (a : string) (b : PyObj) : bool :=
  match b with
  | PyStr s => String.eqb a s
  | _ => false
  end.

(** [sum(1 for doc in docs)]. *)
Definition sum_ones (docs : list PyObj) : nat := length docs.

(** ** The world outside the class *)

(** A file either holds a pickled object, or bytes that are no pickle. The
    pickle encoding itself is not modelled. *)
Inductive FileContent : Type :=
  | Raw (bytes : string)
  | Pickled (obj : PyObj).

Abbreviation Files := (gmap string FileContent).

(** The [corpus] argument of [serialize]: any iterable.  [c_fname] is its
    [fname] attribute when it has one ([hasattr(corpus, 'fname')]);
    [c_iter] is what iterating it yields, which for a stream that reads
    from disk depends on the files. *)
Record Corpus : Type := {
  c_fname : option PyObj;
  c_iter : Files -> list PyObj
}.

(** The keyword arguments present in one call of [save_corpus]: [None]
    here means the keyword is left out of the call. *)
Record SaveKwargs : Type := {
  kw_labels : option PyObj;
  kw_progress_cnt : option PyObj
}.

(** The calls the class makes to its collaborators. *)
Inductive Call : Type :=
  | CallSaveCorpus (fname : string) (corpus : Corpus) (id2word : PyObj)
                   (kw : SaveKwargs)
  | CallPickle (obj : PyObj) (fname : string)
  | CallUnpickle (fname : string)
  | CallDocByOffset (offset : PyObj)
  | CallIter.

(** What a collaborator does when called: a result or an exception, and
    the files as it leaves them. *)
Definition Ext (A : Type) : Type := Files -> Result A * Files.

(** ** Computations of the class: files threaded through, exceptions
    propagated, collaborator calls logged *)

Record Outcome (A : Type) : Type := mkOutcome {
  result : Result A;
  files_after : Files;
  calls : list Call
}.
Arguments mkOutcome {A} _ _ _.
Arguments result {A} _.
Arguments files_after {A} _.
Arguments calls {A} _.

Definition M (A : Type) : Type := Files -> Outcome A.

Definition ret {A} (a : A) : M A := fun fs => mkOutcome (Ok a) fs [].

Definition raise {A} (e : Exn) : M A := fun fs => mkOutcome (Raise e) fs [].

Definition bind {A B} (m : M A) (k : A -> M B) : M B := fun fs =>
  let o := m fs in
  match result o with
  | Ok a =>
      let o' := k a (files_after o) in
      mkOutcome (result o') (files_after o') (calls o ++ calls o')
  | Raise e => mkOutcome (Raise e) (files_after o) (calls o)
  end.

(** [try: m  except: handler] with a bare [except], which catches every
    exception. *)
Definition try_except {A} (m : M A) (handler : Exn -> M A) : M A := fun fs =>
  let o := m fs in
  match result o with
  | Ok _ => o
  | Raise e =>
      let o' := handler e (files_after o) in
      mkOutcome (result o') (files_after o') (calls o ++ calls o')
  end.

(** A pure operation that may raise. *)
Definition lift {A} (r : Result A) : M A := fun fs => mkOutcome r fs [].

(** One call to a collaborator, logged. *)
Definition invoke {A} (c : Call) (op : Ext A) : M A := fun fs =>
  let '(r, fs') := op fs in mkOutcome r fs' [c].

Declare Scope py_scope.
Delimit Scope py_scope with py.
Notation "x <- m ;; k" := (bind m (fun x => k))
  (at level 100, m at next level, right associativity) : py_scope.
Notation "m ;;; k" := (bind m (fun _ => k))
  (at level 100, right associativity) : py_scope.

(** ** The collaborators *)

(** The corpus format: the class [serialize] is called on, and that the
    instances belong to.  [Self] is what a format's instance keeps for
    itself (typically the path it reads from). *)
Class Serializer (Self : Type) : Type := {
  __name__ : string;
  save_corpus : string -> Corpus -> PyObj -> SaveKwargs -> Ext PyObj;
  docbyoffset : Self -> PyObj -> Ext PyObj;
  __iter__ : Self -> Ext (list PyObj)
}.

(** [gensim.utils.pickle] and [gensim.utils.unpickle]. *)
Class Utils : Type := {
  pickle : PyObj -> string -> Ext unit;
  unpickle : string -> Ext PyObj
}.

(** ** The class *)

Module IndexedCorpus.
Section Methods.
Context {Self : Type} {serializer : Serializer Self} {utils : Utils}.
Local Open Scope py_scope.

(** An instance: the format's own part, and the two attributes this
    class sets. *)
Record t : Type := {
  sub : Self;
  index : PyObj;
  length : option nat
}.

Definition __init__ (self : Self) (fname : string)
    (index_fname : option string) : M t :=
  idx <- try_except
           (let index_fname :=
              match index_fname with
              | None => fname +:+ ".index"
              | Some p => p
              end in
            invoke (CallUnpickle index_fname) (unpickle index_fname))
           (fun _ => ret PyNone) ;;
  ret {| sub := self; index := idx; length := None |}.

Definition serialize (fname : string) (corpus : Corpus)
    (id2word : PyObj) (index_fname : option string)
    (progress_cnt labels : PyObj) : M unit :=
  match c_fname corpus with
  | Some corpus_fname =>
      if py_str_eq fname corpus_fname then
        raise (ValueError ("fname == corpus.fname == " +:+ fname +:+
          ", attempt to serialize would erase corpus.  Serialization aborted."))
      else ret tt
  | None => ret tt
  end ;;;
  let index_fname :=
    match index_fname with
    | None => fname +:+ ".index"
    | Some p => p
    end in
  let call kw :=
    invoke (CallSaveCorpus fname corpus id2word kw)
           (save_corpus fname corpus id2word kw) in
  offsets <-
    (if negb (is_none progress_cnt) then
       if negb (is_none labels) then
         call {| kw_labels := Some labels; kw_progress_cnt := Some progress_cnt |}
       else
         call {| kw_labels := None; kw_progress_cnt := Some progress_cnt |}
     else
       if negb (is_none labels) then
         call {| kw_labels := Some labels; kw_progress_cnt := None |}
       else
         call {| kw_labels := None; kw_progress_cnt := None |}) ;;
  (if is_none offsets then
     raise (NotImplementedError ("called serialize on class " +:+ __name__ +:+
       " which doesn't support indexing!"))
   else ret tt) ;;;
  invoke (CallPickle offsets index_fname) (pickle offsets index_fname).

(** Returns the count together with the instance, whose [length] the
    call may have set. *)
Definition __len__ (self : t) : M (nat * t) :=
  if negb (is_none (index self)) then
    n <- lift (py_len (index self)) ;; ret (n, self)
  else
    match length self with
    | None =>
        docs <- invoke CallIter (__iter__ (sub self)) ;;
        let n := sum_ones docs in
        ret (n, {| sub := sub self; index := index self; length := Some n |})
    | Some n => ret (n, self)
    end.

Definition __getitem__ (self : t) (docno : Z) : M PyObj :=
  if is_none (index self) then
    raise (RuntimeError "cannot call corpus[docid] without an index")
  else
    offset <- lift (py_getitem (index self) docno) ;;
    invoke (CallDocByOffset offset) (docbyoffset (sub self) offset).

End Methods.
Arguments t Self : clear implicits.
End IndexedCorpus.

(** ** Concrete collaborators *)

(** Modelled from the spec: the Blob Persistence facility
    ([gensim.utils.pickle] and [gensim.utils.unpickle], whose code is in
    another module).  It saves an object under a path as an opaque unit and
    loads it back; loading fails when the file is missing and when its
    content is no pickle. *)
Definition pickle_file (obj : PyObj) (fname : string) : Ext unit :=
  fun fs => (Ok tt, <[fname := Pickled obj]> fs).

(** Modelled from the spec: loading through Blob Persistence
    ([gensim.utils.unpickle]); see [pickle_file]. *)
Definition unpickle_file (fname : string) : Ext PyObj :=
  fun fs =>
    match fs !! fname with
    | Some (Pickled obj) => (Ok obj, fs)
    | Some (Raw _) => (Raise (UnpicklingError "invalid load key"), fs)
    | None => (Raise (IOError ("No such file or directory: " +:+ fname)), fs)
    end.

(** Modelled from the spec: the two helpers together, on the files. *)
Definition file_utils : Utils :=
  {| pickle := pickle_file; unpickle := unpickle_file |}.

(** A small format to run the class on: one document per line, a document
    being a string without line breaks; the offset of a document is the
    position of the first character of its line. *)
Module LineCorpus.

Definition nl : string := String (Ascii.ascii_of_nat 10) EmptyString.

Definition encode (doc : PyObj) : string :=
  match doc with
  | PyStr s => s +:+ nl
  | _ => nl
  end.

Fixpoint encode_all (docs : list PyObj) : string :=
  match docs with
  | [] => EmptyString
  | d :: ds => encode d +:+ encode_all ds
  end.

Fixpoint offsets_from (pos : nat) (docs : list PyObj) : list PyObj :=
  match docs with
  | [] => []
  | d :: ds =>
      PyInt (Z.of_nat pos) :: offsets_from (pos + String.length (encode d)) ds
  end.

(** The text up to the first line break. *)
Fixpoint first_line (s : string) : string :=
  match s with
  | EmptyString => EmptyString
  | String c rest =>
      if Ascii.eqb c (Ascii.ascii_of_nat 10) then EmptyString
      else String c (first_line rest)
  end.

Fixpoint drop (k : nat) (s : string) : string :=
  match k, s with
  | O, _ => s
  | S k', String _ rest => drop k' rest
  | S _, EmptyString => EmptyString
  end.

(** All lines, in order; [cur] accumulates the current line reversed. *)
Fixpoint lines_from (cur : string) (s : string) : list PyObj :=
  match s with
  | EmptyString => []
  | String c rest =>
      if Ascii.eqb c (Ascii.ascii_of_nat 10) then
        PyStr (String.rev cur) :: lines_from EmptyString rest
      else lines_from (String c cur) rest
  end.

Definition read_lines (fname : string) (fs : Files) : list PyObj :=
  match fs !! fname with
  | Some (Raw s) => lines_from EmptyString s
  | _ => []
  end.

(** Opens [fname] for writing, which empties it, then writes the
    documents of [corpus] one by one, noting where each begins. *)
Definition save (fname : string) (corpus : Corpus) (id2word : PyObj)
    (kw : SaveKwargs) : Ext PyObj :=
  fun fs =>
    let fs1 := <[fname := Raw EmptyString]> fs in
    let docs := c_iter corpus fs1 in
    (Ok (PyList (offsets_from 0 docs)), <[fname := Raw (encode_all docs)]> fs1).

Definition doc_at (self : string) (offset : PyObj) : Ext PyObj :=
  fun fs =>
    match offset, fs !! self with
    | PyInt z, Some (Raw s) => (Ok (PyStr (first_line (drop (Z.to_nat z) s))), fs)
    | PyInt _, _ => (Raise (IOError ("No such file or directory: " +:+ self)), fs)
    | _, _ => (Raise TypeError, fs)
    end.

Definition iter (self : string) : Ext (list PyObj) :=
  fun fs =>
    match fs !! self with
    | Some (Raw s) => (Ok (lines_from EmptyString s), fs)
    | _ => (Raise (IOError ("No such file or directory: " +:+ self)), fs)
    end.

Definition serializer : Serializer string :=
  {| __name__ := "LineCorpus";
     save_corpus := save;
     docbyoffset := doc_at;
     __iter__ := iter |}.

(** The same format without support for indexing: [save_corpus] writes
    the documents and returns [None]. *)
Definition save_unindexed (fname : string) (corpus : Corpus)
    (id2word : PyObj) (kw : SaveKwargs) : Ext PyObj :=
  fun fs =>
    let fs1 := <[fname := Raw EmptyString]> fs in
    (Ok PyNone, <[fname := Raw (encode_all (c_iter corpus fs1))]> fs1).

Definition unindexed_serializer : Serializer string :=
  {| __name__ := "PlainLineCorpus";
     save_corpus := save_unindexed;
     docbyoffset := doc_at;
     __iter__ := iter |}.

(** An in-memory list of documents: no [fname] attribute. *)
Definition of_list (docs : list PyObj) : Corpus :=
  {| c_fname := None; c_iter := fun _ => docs |}.

(** An opened corpus of this format: it has the [fname] attribute and
    reads its documents from that file. *)
Definition opened (fname : string) : Corpus :=
  {| c_fname := Some (PyStr fname); c_iter := read_lines fname |}.

(** A generator over an opened corpus, [(doc for doc in corpus)]: the
    same documents from the same file, and no [fname] attribute. *)
Definition generator_over (fname : string) : Corpus :=
  {| c_fname := None; c_iter := read_lines fname |}.

End LineCorpus.

(** ** Notions the properties are stated with *)

(** [self.index is not None]: the instance has an index to answer from. *)
Definition indexed {Self} (self : IndexedCorpus.t Self) : bool :=
  negb (is_none (IndexedCorpus.index self)).

(** The path [__init__] and [serialize] use for the index. *)
Definition index_path (fname : string) (index_fname : option string) : string :=
  match index_fname with
  | None => fname +:+ ".index"
  | Some p => p
  end.

(** The keyword a caller's argument turns into: none when the argument is
    [None], which is also its default. *)
Definition supplied (arg : PyObj) : option PyObj :=
  if is_none arg then None else Some arg.

Definition kwargs_passed (progress_cnt labels : PyObj) : SaveKwargs :=
  {| kw_labels := supplied labels; kw_progress_cnt := supplied progress_cnt |}.

(** The instance [__len__] leaves behind after counting [n] documents. *)
Definition with_length {Self} (self : IndexedCorpus.t Self) (n : nat)
    : IndexedCorpus.t Self :=
  {| IndexedCorpus.sub := IndexedCorpus.sub self;
     IndexedCorpus.index := IndexedCorpus.index self;
     IndexedCorpus.length := Some n |}.

(** The documents of [corpus] come from the file at [path]: there are files
    for which changing that one file changes what iterating yields. *)
Definition backed_by (corpus : Corpus) (path : string) : Prop :=
  exists (fs : Files) (content : FileContent),
    c_iter corpus (<[path := content]> fs) <> c_iter corpus fs.

(** The pickling helpers load back what they saved. *)
Definition pickle_roundtrip {utils : Utils} : Prop :=
  forall (obj : PyObj) (path : string) (fs fs' : Files),
    pickle obj path fs = (Ok tt, fs') -> unpickle path fs' = (Ok obj, fs').

(** For the stream [corpus] as it is on the files [fs], whatever
    [save_corpus] returns is a list with one offset per document. *)
Definition one_offset_per_document {Self} {serializer : Serializer Self}
    (fname : string) (corpus : Corpus) (id2word : PyObj) (fs : Files) : Prop :=
  forall (kw : SaveKwargs) (v : PyObj) (fs1 : Files),
    save_corpus fname corpus id2word kw fs = (Ok v, fs1) ->
    exists offsets : list PyObj,
      v = PyList offsets /\ length offsets = sum_ones (c_iter corpus fs).

(** The text of the [ValueError] of the guard of [serialize]. *)
Definition erase_message (fname : string) : string :=
  "fname == corpus.fname == " +:+ fname +:+
  ", attempt to serialize would erase corpus.  Serialization aborted.".

(** The text of its [NotImplementedError]. *)
Definition unsupported_message {Self} {serializer : Serializer Self} : string :=
  "called serialize on class " +:+ __name__ +:+
  " which doesn't support indexing!".

(** [serialize] past its guard: one call of [save_corpus], then the test
    of what it returned, then one call of [pickle]. *)
Definition write_and_index {Self} {serializer : Serializer Self} {utils : Utils}
    (fname : string) (corpus : Corpus) (id2word : PyObj)
    (index_fname : option string) (progress_cnt labels : PyObj) : M unit :=
  (offsets <- invoke (CallSaveCorpus fname corpus id2word
                        (kwargs_passed progress_cnt labels))
                     (save_corpus fname corpus id2word
                        (kwargs_passed progress_cnt labels)) ;;
   (if is_none offsets then raise (NotImplementedError unsupported_message)
    else ret tt) ;;;
   invoke (CallPickle offsets (index_path fname index_fname))
          (pickle offsets (index_path fname index_fname)))%py.

(** ** A run of the class

    Two documents are serialized to [test.dat] in an empty directory; the
    corpus is then opened, with and without its index. *)

Definition D0 : PyObj := PyStr "human interface".
Definition D1 : PyObj := PyStr "graph trees".

Definition after_serialize : Outcome unit :=
  IndexedCorpus.serialize (serializer := LineCorpus.serializer)
    (utils := file_utils)
    "test.dat" (LineCorpus.of_list [D0; D1]) PyNone None PyNone PyNone ∅.

Definition mm_files : Files := files_after after_serialize.

(** [LineCorpus('test.dat')], as [__init__] builds it on [mm_files]. *)
Definition mm_corpus : IndexedCorpus.t string :=
  {| IndexedCorpus.sub := "test.dat";
     IndexedCorpus.index := PyList [PyInt 0; PyInt 16];
     IndexedCorpus.length := None |}.

(** The same corpus opened where the index file is missing. *)
Definition unindexed_corpus : IndexedCorpus.t string :=
  {| IndexedCorpus.sub := "test.dat";
     IndexedCorpus.index := PyNone;
     IndexedCorpus.length := None |}.

(** [(doc for doc in LineCorpus('test.dat'))]. *)
Definition doc_generator : Corpus := LineCorpus.generator_over "test.dat".

(** [LineCorpus('test.dat')] as the [corpus] argument of [serialize]. *)
Definition opened_corpus : Corpus := LineCorpus.opened "test.dat".


(** [LineCorpus.serialize('test.dat', doc_generator)] on the files of the
    run: the target is the file the generator reads. *)
Definition onto_generator_source : Outcome unit :=
  IndexedCorpus.serialize (serializer := LineCorpus.serializer)
    (utils := file_utils)
    "test.dat" doc_generator PyNone None PyNone PyNone mm_files.

(** ** Further runs: collaborators that fail, indexes of other shapes *)

(** A format whose [save_corpus] cannot open the target for writing. *)
Definition readonly_save (fname : string) (corpus : Corpus) (id2word : PyObj)
    (kw : SaveKwargs) : Ext PyObj :=
  fun fs => (Raise (IOError ("Permission denied: " +:+ fname)), fs).

Definition readonly_serializer : Serializer string :=
  {| __name__ := "LineCorpus";
     save_corpus := readonly_save;
     docbyoffset := LineCorpus.doc_at;
     __iter__ := LineCorpus.iter |}.

(** Pickling helpers on a disk with no room left: nothing can be saved. *)
Definition full_disk_pickle (obj : PyObj) (fname : string) : Ext unit :=
  fun fs => (Raise (IOError "No space left on device"), fs).

Definition full_disk_utils : Utils :=
  {| pickle := full_disk_pickle; unpickle := unpickle_file |}.

(** The corpus of the run with its index file removed, and with an index
    file that holds a pickled integer. *)
Definition no_index_files : Files := delete "test.dat.index" mm_files.

Definition int_index_files : Files :=
  <["test.dat.index" := Pickled (PyInt 7)]> mm_files.

(** The same with an index file that holds a pickled [None]. *)
Definition none_index_files : Files :=
  <["test.dat.index" := Pickled PyNone]> mm_files.

(** An opened corpus whose index is the empty list: what serializing an
    empty stream leaves behind. *)
Definition empty_corpus : IndexedCorpus.t string :=
  {| IndexedCorpus.sub := "test.dat";
     IndexedCorpus.index := PyList [];
     IndexedCorpus.length := None |}.

(** * Properties *)

(** ** Subscripts *)

Lemma norm_index_nonneg (n : nat) (i : Z) :
  0 <= i < Z.of_nat n -> norm_index n i = Some (Z.to_nat i).
Proof.
  intros Hi. unfold norm_index.
  destruct (Z.ltb_spec i 0); [lia |].
  destruct (Z.ltb_spec i 0); [lia |].
  destruct (Z.leb_spec (Z.of_nat n) i); [lia | reflexivity].
Qed.

Lemma norm_index_neg (n : nat) (i : Z) :
  - Z.of_nat n <= i < 0 -> norm_index n i = Some (Z.to_nat (Z.of_nat n + i)).
Proof.
  intros Hi. unfold norm_index.
  destruct (Z.ltb_spec i 0); [| lia].
  destruct (Z.ltb_spec (i + Z.of_nat n) 0); [lia |].
  destruct (Z.leb_spec (Z.of_nat n) (i + Z.of_nat n)); [lia |].
  simpl. do 2 f_equal. lia.
Qed.

Lemma norm_index_out (n : nat) (i : Z) :
  i < - Z.of_nat n \/ Z.of_nat n <= i -> norm_index n i = None.
Proof.
  intros Hout. unfold norm_index.
  destruct (Z.ltb_spec i 0).
  - destruct (Z.ltb_spec (i + Z.of_nat n) 0); [reflexivity | lia].
  - destruct (Z.ltb_spec i 0); [lia |].
    destruct (Z.leb_spec (Z.of_nat n) i); [reflexivity | lia].
Qed.

Lemma norm_index_None (n : nat) (i : Z) :
  norm_index n i = None <-> (i < - Z.of_nat n \/ Z.of_nat n <= i).
Proof.
  split; [| apply norm_index_out].
  intros Hnone.
  destruct (Z_lt_le_dec i (- Z.of_nat n)) as [|Hlo]; [by left |].
  destruct (Z_lt_le_dec i (Z.of_nat n)) as [Hhi|]; [| by right].
  destruct (Z_lt_le_dec i 0).
  - rewrite norm_index_neg in Hnone by lia. discriminate.
  - rewrite norm_index_nonneg in Hnone by lia. discriminate.
Qed.

Lemma norm_index_lt (n : nat) (i : Z) (k : nat) :
  norm_index n i = Some k -> (k < n)%nat.
Proof.
  intros Hk.
  destruct (Z_lt_le_dec i (- Z.of_nat n)).
  { rewrite norm_index_out in Hk by lia. discriminate. }
  destruct (Z_lt_le_dec i (Z.of_nat n)).
  2: { rewrite norm_index_out in Hk by lia. discriminate. }
  destruct (Z_lt_le_dec i 0).
  - rewrite norm_index_neg in Hk by lia. injection Hk as <-. lia.
  - rewrite norm_index_nonneg in Hk by lia. injection Hk as <-. lia.
Qed.

(** Subscripting a list of [n] elements: an element for a subscript in
    [-n, n), an [IndexError] for any other. *)
Lemma py_getitem_list_in (items : list PyObj) (i : Z) (k : nat) :
  norm_index (length items) i = Some k ->
  exists v, items !! k = Some v /\ py_getitem (PyList items) i = Ok v.
Proof.
  intros Hk. pose proof (norm_index_lt _ _ _ Hk) as Hlt.
  destruct (lookup_lt_is_Some_2 items k Hlt) as [v Hv].
  exists v. split; [exact Hv |]. simpl. by rewrite Hk, Hv.
Qed.

Lemma py_getitem_list_out (items : list PyObj) (i : Z) :
  norm_index (length items) i = None ->
  py_getitem (PyList items) i = Raise IndexError.
Proof. intros Hk. simpl. by rewrite Hk. Qed.

(** ** Random access *)

Lemma invoke_calls {A} (c : Call) (op : Ext A) (fs : Files) :
  calls (invoke c op fs) = [c].
Proof. unfold invoke. by destruct (op fs). Qed.

Section Access.
Context {Self : Type} {serializer : Serializer Self}.
Implicit Types (self : IndexedCorpus.t Self) (fs : Files).

(** What [__getitem__] does once the subscript has found an offset: one
    call of [docbyoffset], the outcome of which is handed back as is. *)
Lemma getitem_delegates self docno offset fs :
  IndexedCorpus.index self <> PyNone ->
  py_getitem (IndexedCorpus.index self) docno = Ok offset ->
  IndexedCorpus.__getitem__ self docno fs =
    invoke (CallDocByOffset offset)
           (docbyoffset (IndexedCorpus.sub self) offset) fs.
Proof.
  intros Hidx Hget. unfold IndexedCorpus.__getitem__.
  destruct (IndexedCorpus.index self) eqn:E; try congruence;
    simpl is_none; cbv iota; unfold bind, lift; simpl result;
    rewrite Hget; simpl;
    unfold invoke; destruct (docbyoffset _ _ _); reflexivity.
Qed.

Lemma getitem_lookup_fails self docno e fs :
  IndexedCorpus.index self <> PyNone ->
  py_getitem (IndexedCorpus.index self) docno = Raise e ->
  IndexedCorpus.__getitem__ self docno fs = mkOutcome (Raise e) fs [].
Proof.
  intros Hidx Hget. unfold IndexedCorpus.__getitem__.
  destruct (IndexedCorpus.index self) eqn:E; try congruence;
    simpl is_none; cbv iota; unfold bind, lift; simpl result;
    rewrite Hget; reflexivity.
Qed.

(** C3. Without an index, [corpus[docno]] raises the [RuntimeError]
    "cannot call corpus[docid] without an index" for every [docno]: no
    collaborator is called (in particular the stream is not iterated) and
    the files are as before. *)
Theorem getitem_without_index self docno fs :
  IndexedCorpus.index self = PyNone ->
  IndexedCorpus.__getitem__ self docno fs =
    mkOutcome (Raise (RuntimeError "cannot call corpus[docid] without an index"))
              fs [].
Proof.
  intros Hidx. unfold IndexedCorpus.__getitem__. rewrite Hidx. reflexivity.
Qed.

(** C2, amended. With a list of [N] offsets as index, [corpus[docno]]
    ends in the [IndexError] of the subscript, with no collaborator called
    and the files untouched, exactly when [docno] is outside [-N, N).  For
    [docno] in [0, N) the call made is [docbyoffset(index[docno])], for
    [docno] in [-N, 0) it is [docbyoffset(index[N + docno])]; in both cases
    the outcome of that one call is the outcome of [__getitem__],
    unchanged. *)
Theorem getitem_indexed self items docno fs :
  IndexedCorpus.index self = PyList items ->
  let N := Z.of_nat (length items) in
  (IndexedCorpus.__getitem__ self docno fs = mkOutcome (Raise IndexError) fs []
     <-> (docno < - N \/ N <= docno))
  /\ (0 <= docno < N ->
      exists offset, items !! Z.to_nat docno = Some offset /\
        IndexedCorpus.__getitem__ self docno fs =
          invoke (CallDocByOffset offset)
                 (docbyoffset (IndexedCorpus.sub self) offset) fs)
  /\ (- N <= docno < 0 ->
      exists offset, items !! Z.to_nat (N + docno) = Some offset /\
        IndexedCorpus.__getitem__ self docno fs =
          invoke (CallDocByOffset offset)
                 (docbyoffset (IndexedCorpus.sub self) offset) fs).
Proof.
  intros Hidx N.
  assert (Hsome : IndexedCorpus.index self <> PyNone) by (rewrite Hidx; discriminate).
  split; [split | split].
  - intros Hraise. apply norm_index_None.
    destruct (norm_index (length items) docno) as [k|] eqn:Hk; [| reflexivity].
    destruct (py_getitem_list_in items docno k Hk) as (v & _ & Hv).
    rewrite (getitem_delegates self docno v fs) in Hraise
      by (rewrite ?Hidx; done).
    apply (f_equal calls) in Hraise. rewrite invoke_calls in Hraise.
    discriminate.
  - intros Hout. apply norm_index_None in Hout.
    apply getitem_lookup_fails; [exact Hsome |].
    rewrite Hidx. by apply py_getitem_list_out.
  - intros Hin. pose proof (norm_index_nonneg (length items) docno Hin) as Hk.
    destruct (py_getitem_list_in items docno _ Hk) as (v & Hlook & Hv).
    exists v. split; [exact Hlook |].
    apply getitem_delegates; [exact Hsome | by rewrite Hidx].
  - intros Hin. pose proof (norm_index_neg (length items) docno Hin) as Hk.
    destruct (py_getitem_list_in items docno _ Hk) as (v & Hlook & Hv).
    exists v. split; [exact Hlook |].
    apply getitem_delegates; [exact Hsome | by rewrite Hidx].
Qed.

(** C9. With a list of [N >= 1] offsets as index and [-N <= docno <= -1],
    the subscript does not raise: it yields [index[N + docno]], and
    [corpus[docno]] is the outcome of [docbyoffset] on that offset. *)
Theorem getitem_negative_docno self items docno fs :
  IndexedCorpus.index self = PyList items ->
  let N := Z.of_nat (length items) in
  1 <= N ->
  - N <= docno <= -1 ->
  exists offset,
    items !! Z.to_nat (N + docno) = Some offset /\
    py_getitem (IndexedCorpus.index self) docno = Ok offset /\
    IndexedCorpus.__getitem__ self docno fs =
      invoke (CallDocByOffset offset)
             (docbyoffset (IndexedCorpus.sub self) offset) fs.
Proof.
  intros Hidx N HN Hd.
  assert (Hk : norm_index (length items) docno
               = Some (Z.to_nat (Z.of_nat (length items) + docno)))
    by (apply norm_index_neg; lia).
  destruct (py_getitem_list_in items docno _ Hk) as (v & Hlook & Hv).
  exists v. split; [exact Hlook |]. rewrite Hidx. split; [exact Hv |].
  apply getitem_delegates; rewrite Hidx; [discriminate | exact Hv].
Qed.

End Access.

(** *** On the corpus of the run *)

Section AccessRun.
Local Existing Instance LineCorpus.serializer.

Lemma getitem_without_index_witness :
  IndexedCorpus.index unindexed_corpus = PyNone /\
  IndexedCorpus.__getitem__ unindexed_corpus 0 mm_files =
    mkOutcome (Raise (RuntimeError "cannot call corpus[docid] without an index"))
              mm_files [].
Proof.
  split; [reflexivity |].
  apply (getitem_without_index unindexed_corpus 0 mm_files). reflexivity.
Defined.

Lemma getitem_indexed_witness :
  IndexedCorpus.__getitem__ mm_corpus 2 mm_files =
    mkOutcome (Raise IndexError) mm_files []
  /\ IndexedCorpus.__getitem__ mm_corpus 1 mm_files =
       mkOutcome (Ok D1) mm_files [CallDocByOffset (PyInt 16)]
  /\ IndexedCorpus.__getitem__ mm_corpus (-2) mm_files =
       mkOutcome (Ok D0) mm_files [CallDocByOffset (PyInt 0)].
Proof.
  split; [| split].
  - destruct (getitem_indexed mm_corpus [PyInt 0; PyInt 16] 2 mm_files eq_refl)
      as ([_ Hout] & _ & _).
    apply Hout. right. simpl. lia.
  - destruct (getitem_indexed mm_corpus [PyInt 0; PyInt 16] 1 mm_files eq_refl)
      as (_ & Hin & _).
    destruct Hin as (offset & Hlook & Hget); [simpl; lia |].
    vm_compute in Hlook. injection Hlook as <-.
    rewrite Hget. vm_compute. reflexivity.
  - destruct (getitem_indexed mm_corpus [PyInt 0; PyInt 16] (-2) mm_files eq_refl)
      as (_ & _ & Hneg).
    destruct Hneg as (offset & Hlook & Hget); [simpl; lia |].
    vm_compute in Hlook. injection Hlook as <-.
    rewrite Hget. vm_compute. reflexivity.
Defined.

(** C2 as stated, at [docno = -1] on an index of [N = 2] offsets: the claim
    is that [corpus[-1]] raises [IndexError], since [-1] is outside
    [0, 2).  It returns the last document. *)
Lemma getitem_minus_one_counterexample :
  result (IndexedCorpus.__getitem__ mm_corpus (-1) mm_files) = Ok D1
  /\ ~ (result (IndexedCorpus.__getitem__ mm_corpus (-1) mm_files)
          = Raise IndexError
        <-> ~ (0 <= -1 < Z.of_nat (length [PyInt 0; PyInt 16]))).
Proof.
  split; [vm_compute; reflexivity |].
  intros [_ Hraises].
  assert (Hmsg : result (IndexedCorpus.__getitem__ mm_corpus (-1) mm_files)
                 = Raise IndexError) by (apply Hraises; simpl; lia).
  vm_compute in Hmsg. discriminate.
Qed.

Lemma getitem_negative_docno_witness :
  1 <= Z.of_nat (length [PyInt 0; PyInt 16])
  /\ - Z.of_nat (length [PyInt 0; PyInt 16]) <= -1 <= -1
  /\ py_getitem (IndexedCorpus.index mm_corpus) (-1) = Ok (PyInt 16)
  /\ IndexedCorpus.__getitem__ mm_corpus (-1) mm_files =
       mkOutcome (Ok D1) mm_files [CallDocByOffset (PyInt 16)].
Proof.
  assert (H1 : 1 <= Z.of_nat (length [PyInt 0; PyInt 16])) by (simpl; lia).
  assert (H2 : - Z.of_nat (length [PyInt 0; PyInt 16]) <= -1 <= -1) by (simpl; lia).
  split; [exact H1 |]. split; [exact H2 |].
  destruct (getitem_negative_docno mm_corpus [PyInt 0; PyInt 16] (-1) mm_files
              eq_refl H1 H2) as (offset & Hlook & Hsub & Hget).
  vm_compute in Hlook. injection Hlook as <-.
  split; [exact Hsub |]. rewrite Hget. vm_compute. reflexivity.
Defined.

(** The corpus of the run answers as the documentation of the class says:
    [corpus[1]] is the second document, [corpus[2]] is out of range. *)
Example run_getitem_1 :
  result (IndexedCorpus.__getitem__ mm_corpus 1 mm_files) = Ok D1.
Proof. vm_compute. reflexivity. Qed.

Example run_getitem_2 :
  result (IndexedCorpus.__getitem__ mm_corpus 2 mm_files)
  = Raise IndexError.
Proof. vm_compute. reflexivity. Qed.

End AccessRun.

(** ** Opening *)

Section Opening.
Context {Self : Type} {utils : Utils}.

Lemma init_loaded (self : Self) fname index_fname (fs fs' : Files) (obj : PyObj) :
  unpickle (index_path fname index_fname) fs = (Ok obj, fs') ->
  IndexedCorpus.__init__ self fname index_fname fs =
    mkOutcome (Ok {| IndexedCorpus.sub := self;
                     IndexedCorpus.index := obj;
                     IndexedCorpus.length := None |})
              fs' [CallUnpickle (index_path fname index_fname)].
Proof.
  intros Hload.
  unfold IndexedCorpus.__init__, bind, try_except, invoke.
  fold (index_path fname index_fname). by rewrite Hload.
Qed.

Lemma init_load_failed (self : Self) fname index_fname (fs fs' : Files) (e : Exn) :
  unpickle (index_path fname index_fname) fs = (Raise e, fs') ->
  IndexedCorpus.__init__ self fname index_fname fs =
    mkOutcome (Ok {| IndexedCorpus.sub := self;
                     IndexedCorpus.index := PyNone;
                     IndexedCorpus.length := None |})
              fs' [CallUnpickle (index_path fname index_fname)].
Proof.
  intros Hload.
  unfold IndexedCorpus.__init__, bind, try_except, invoke.
  fold (index_path fname index_fname). by rewrite Hload.
Qed.

(** C4, amended. Whatever [unpickle] does on the index path, return an
    object or raise any exception at all, [__init__] returns an instance
    and raises nothing.  After an exception the instance has no index
    ([index = None]).  After a return its index is the returned object,
    whatever its type: nothing is checked, and the instance is in indexed
    state exactly when that object is not [None].  The count cache starts
    empty, the files are as [unpickle] left them, and [unpickle] is the
    only call made. *)
Theorem init_never_raises (self : Self) (fname : string)
    (index_fname : option string) (fs fs' : Files) (loaded : Result PyObj) :
  unpickle (index_path fname index_fname) fs = (loaded, fs') ->
  exists corpus : IndexedCorpus.t Self,
    IndexedCorpus.__init__ self fname index_fname fs =
      mkOutcome (Ok corpus) fs' [CallUnpickle (index_path fname index_fname)]
    /\ IndexedCorpus.sub corpus = self
    /\ IndexedCorpus.length corpus = None
    /\ match loaded with
       | Raise _ =>
           IndexedCorpus.index corpus = PyNone /\ indexed corpus = false
       | Ok obj =>
           IndexedCorpus.index corpus = obj /\
           indexed corpus = negb (is_none obj)
       end.
Proof.
  intros Hload. destruct loaded as [obj | e].
  - eexists. split; [by apply init_loaded |]. by repeat split.
  - eexists. split; [by eapply init_load_failed |]. by repeat split.
Qed.

End Opening.

(** Opening the corpus of the run: with its index file, with the index
    file missing, and with something that is no pickle in its place. *)
Lemma init_never_raises_witness :
  IndexedCorpus.__init__ (utils := file_utils) "test.dat" "test.dat" None mm_files
    = mkOutcome (Ok mm_corpus) mm_files [CallUnpickle "test.dat.index"]
  /\ IndexedCorpus.__init__ (utils := file_utils) "test.dat" "test.dat" None ∅
    = mkOutcome (Ok unindexed_corpus) ∅ [CallUnpickle "test.dat.index"]
  /\ IndexedCorpus.__init__ (utils := file_utils) "test.dat" "test.dat"
       (Some "test.dat") mm_files
    = mkOutcome (Ok unindexed_corpus) mm_files [CallUnpickle "test.dat"].
Proof.
  split; [| split].
  - destruct (init_never_raises (utils := file_utils) "test.dat" "test.dat" None
                mm_files mm_files (Ok (PyList [PyInt 0; PyInt 16])))
      as ([self idx len] & Hinit & Hsub & Hlen & Hidx & _);
      [vm_compute; reflexivity |].
    simpl in Hsub, Hlen, Hidx. subst. exact Hinit.
  - destruct (init_never_raises (utils := file_utils) "test.dat" "test.dat" None
                ∅ ∅ (Raise (IOError "No such file or directory: test.dat.index")))
      as ([self idx len] & Hinit & Hsub & Hlen & Hidx & _);
      [vm_compute; reflexivity |].
    simpl in Hsub, Hlen, Hidx. subst. exact Hinit.
  - destruct (init_never_raises (utils := file_utils) "test.dat" "test.dat"
                (Some "test.dat") mm_files mm_files
                (Raise (UnpicklingError "invalid load key")))
      as ([self idx len] & Hinit & Hsub & Hlen & Hidx & _);
      [vm_compute; reflexivity |].
    simpl in Hsub, Hlen, Hidx. subst. exact Hinit.
Defined.

(** C4 as stated, on two index files that load without an exception.  The
    claim is that a blob of the wrong type leaves the corpus without index,
    and that a load that succeeds leaves it in indexed state.  A pickled
    integer is no sequence of offsets, yet it is kept as the index and the
    corpus is in indexed state; a pickled [None] loads like any other
    object, and the corpus is left without index. *)
Lemma init_keeps_what_was_loaded_counterexample :
  unpickle (Utils := file_utils) "test.dat.index" int_index_files
    = (Ok (PyInt 7), int_index_files)
  /\ unpickle (Utils := file_utils) "test.dat.index" none_index_files
    = (Ok PyNone, none_index_files)
  /\ ~ (forall corpus : IndexedCorpus.t string,
          result (IndexedCorpus.__init__ (utils := file_utils)
                    "test.dat" "test.dat" None int_index_files) = Ok corpus ->
          indexed corpus = false)
  /\ ~ (forall corpus : IndexedCorpus.t string,
          result (IndexedCorpus.__init__ (utils := file_utils)
                    "test.dat" "test.dat" None none_index_files) = Ok corpus ->
          indexed corpus = true).
Proof.
  split; [vm_compute; reflexivity |]. split; [vm_compute; reflexivity |].
  split.
  - intros Hclaim.
    specialize (Hclaim {| IndexedCorpus.sub := "test.dat";
                          IndexedCorpus.index := PyInt 7;
                          IndexedCorpus.length := None |}).
    assert (Hstate : indexed {| IndexedCorpus.sub := "test.dat";
                                IndexedCorpus.index := PyInt 7;
                                IndexedCorpus.length := None |} = false)
      by (apply Hclaim; vm_compute; reflexivity).
    discriminate Hstate.
  - intros Hclaim.
    specialize (Hclaim unindexed_corpus).
    assert (Hstate : indexed unindexed_corpus = true)
      by (apply Hclaim; vm_compute; reflexivity).
    discriminate Hstate.
Qed.

(** ** Length *)

Section Length.
Context {Self : Type} {serializer : Serializer Self}.
Implicit Types (self : IndexedCorpus.t Self) (fs : Files).

Lemma len_of_list_index self items fs :
  IndexedCorpus.index self = PyList items ->
  IndexedCorpus.__len__ self fs = mkOutcome (Ok (length items, self)) fs [].
Proof.
  intros Hidx. unfold IndexedCorpus.__len__. rewrite Hidx. reflexivity.
Qed.

(** C5. With a list as index, [len(corpus)] is the number of its
    elements, and nothing is called: the stream is not iterated.  Without
    an index and with nothing cached, [len(corpus)] iterates the stream
    once, returns the number of documents the pass produced and stores it
    in [length]; from then on, on whatever files, [len(corpus)] returns
    the stored number, calls nothing and leaves the instance as it is. *)
Theorem len_indexed_or_counted_once self fs :
  (forall items,
      IndexedCorpus.index self = PyList items ->
      IndexedCorpus.__len__ self fs = mkOutcome (Ok (length items, self)) fs [])
  /\ (forall docs fs',
      IndexedCorpus.index self = PyNone ->
      IndexedCorpus.length self = None ->
      __iter__ (IndexedCorpus.sub self) fs = (Ok docs, fs') ->
      IndexedCorpus.__len__ self fs =
        mkOutcome (Ok (length docs, with_length self (length docs))) fs' [CallIter]
      /\ forall fs2,
          IndexedCorpus.__len__ (with_length self (length docs)) fs2 =
            mkOutcome (Ok (length docs, with_length self (length docs))) fs2 []).
Proof.
  split.
  - intros items. apply len_of_list_index.
  - intros docs fs' Hidx Hlen Hiter. split.
    + unfold IndexedCorpus.__len__. rewrite Hidx, Hlen. simpl.
      unfold bind, invoke, with_length. rewrite Hiter, Hidx. reflexivity.
    + intros fs2. unfold IndexedCorpus.__len__, with_length. simpl.
      rewrite Hidx. reflexivity.
Qed.

End Length.

Lemma len_indexed_or_counted_once_witness :
  IndexedCorpus.__len__ (serializer := LineCorpus.serializer) mm_corpus mm_files
    = mkOutcome (Ok (2%nat, mm_corpus)) mm_files []
  /\ IndexedCorpus.__len__ (serializer := LineCorpus.serializer)
       unindexed_corpus mm_files
    = mkOutcome (Ok (2%nat, with_length unindexed_corpus 2)) mm_files [CallIter]
  /\ IndexedCorpus.__len__ (serializer := LineCorpus.serializer)
       (with_length unindexed_corpus 2) ∅
    = mkOutcome (Ok (2%nat, with_length unindexed_corpus 2)) ∅ [].
Proof.
  split; [| split].
  - destruct (len_indexed_or_counted_once (serializer := LineCorpus.serializer)
                mm_corpus mm_files) as [Hindexed _].
    apply (Hindexed [PyInt 0; PyInt 16]). reflexivity.
  - destruct (len_indexed_or_counted_once (serializer := LineCorpus.serializer)
                unindexed_corpus mm_files) as [_ Hcount].
    destruct (Hcount [D0; D1] mm_files) as [Hfirst _];
      [reflexivity | reflexivity | vm_compute; reflexivity |].
    exact Hfirst.
  - destruct (len_indexed_or_counted_once (serializer := LineCorpus.serializer)
                unindexed_corpus mm_files) as [_ Hcount].
    destruct (Hcount [D0; D1] mm_files) as [_ Hagain];
      [reflexivity | reflexivity | vm_compute; reflexivity |].
    exact (Hagain ∅).
Defined.

(** ** Serializing *)

Lemma py_str_eq_true (a : string) (b : PyObj) :
  py_str_eq a b = true <-> b = PyStr a.
Proof.
  destruct b; simpl; try (split; [discriminate | congruence]).
  rewrite String.eqb_eq. split; congruence.
Qed.

Lemma PyObj_None_dec (x : PyObj) : {x = PyNone} + {x <> PyNone}.
Proof. destruct x; [by left | by right ..]. Qed.

Lemma fname_attr_dec (corpus : Corpus) (fname : string) :
  {c_fname corpus = Some (PyStr fname)} + {c_fname corpus <> Some (PyStr fname)}.
Proof.
  destruct (c_fname corpus) as [attr|]; [| by right].
  destruct (py_str_eq fname attr) eqn:Heq.
  - left. apply py_str_eq_true in Heq. by subst.
  - right. intros [= ->]. simpl in Heq. rewrite String.eqb_refl in Heq.
    discriminate.
Qed.

Lemma bind_ret {A B} (a : A) (k : A -> M B) (fs : Files) :
  bind (ret a) k fs = k a fs.
Proof. unfold bind, ret. simpl. by destruct (k a fs). Qed.

Lemma supplied_cases (progress_cnt labels : PyObj) :
  {| kw_labels := (if negb (is_none labels) then Some labels else None);
     kw_progress_cnt :=
       (if negb (is_none progress_cnt) then Some progress_cnt else None) |}
  = kwargs_passed progress_cnt labels.
Proof.
  unfold kwargs_passed, supplied.
  by destruct (is_none labels), (is_none progress_cnt).
Qed.

Section Serializing.
Context {Self : Type} {serializer : Serializer Self} {utils : Utils}.
Implicit Types (fs : Files) (corpus : Corpus).

Lemma serialize_guard_fires fname corpus id2word index_fname progress_cnt labels fs :
  c_fname corpus = Some (PyStr fname) ->
  IndexedCorpus.serialize fname corpus id2word index_fname progress_cnt labels fs
  = mkOutcome (Raise (ValueError (erase_message fname))) fs [].
Proof.
  intros Hattr. unfold IndexedCorpus.serialize. rewrite Hattr. simpl.
  rewrite String.eqb_refl. reflexivity.
Qed.

Lemma serialize_guard_passes fname corpus id2word index_fname progress_cnt labels fs :
  c_fname corpus <> Some (PyStr fname) ->
  IndexedCorpus.serialize fname corpus id2word index_fname progress_cnt labels fs
  = write_and_index fname corpus id2word index_fname progress_cnt labels fs.
Proof.
  intros Hattr. unfold IndexedCorpus.serialize, write_and_index.
  fold (index_path fname index_fname). fold unsupported_message.
  assert (Hsame : forall k : unit -> M unit,
             bind match c_fname corpus with
                  | Some corpus_fname =>
                      if py_str_eq fname corpus_fname
                      then raise (ValueError
                        ("fname == corpus.fname == " +:+ fname +:+
                         ", attempt to serialize would erase corpus.  Serialization aborted."))
                      else ret tt
                  | None => ret tt
                  end k fs = k tt fs).
  { intros k. destruct (c_fname corpus) as [attr|]; [| apply bind_ret].
    destruct (py_str_eq fname attr) eqn:Heq; [| apply bind_ret].
    apply py_str_eq_true in Heq. congruence. }
  rewrite Hsame. rewrite <- (supplied_cases progress_cnt labels).
  by destruct (is_none progress_cnt), (is_none labels).
Qed.

(** The three ways [serialize] can end past its guard. *)
Lemma write_and_index_raises fname corpus id2word index_fname progress_cnt labels fs e fs1 :
  save_corpus fname corpus id2word (kwargs_passed progress_cnt labels) fs
    = (Raise e, fs1) ->
  write_and_index fname corpus id2word index_fname progress_cnt labels fs
  = mkOutcome (Raise e) fs1
      [CallSaveCorpus fname corpus id2word (kwargs_passed progress_cnt labels)].
Proof.
  intros Hsave. unfold write_and_index, bind, invoke. by rewrite Hsave.
Qed.

Lemma write_and_index_unsupported fname corpus id2word index_fname progress_cnt labels fs fs1 :
  save_corpus fname corpus id2word (kwargs_passed progress_cnt labels) fs
    = (Ok PyNone, fs1) ->
  write_and_index fname corpus id2word index_fname progress_cnt labels fs
  = mkOutcome (Raise (NotImplementedError unsupported_message)) fs1
      [CallSaveCorpus fname corpus id2word (kwargs_passed progress_cnt labels)].
Proof.
  intros Hsave. unfold write_and_index, bind, invoke. by rewrite Hsave.
Qed.

Lemma write_and_index_offsets fname corpus id2word index_fname progress_cnt labels
    fs offsets fs1 saved fs2 :
  save_corpus fname corpus id2word (kwargs_passed progress_cnt labels) fs
    = (Ok offsets, fs1) ->
  offsets <> PyNone ->
  pickle offsets (index_path fname index_fname) fs1 = (saved, fs2) ->
  write_and_index fname corpus id2word index_fname progress_cnt labels fs
  = mkOutcome saved fs2
      [CallSaveCorpus fname corpus id2word (kwargs_passed progress_cnt labels);
       CallPickle offsets (index_path fname index_fname)].
Proof.
  intros Hsave Hsome Hpickle. unfold write_and_index, bind, invoke.
  rewrite Hsave. simpl.
  destruct offsets; try congruence; simpl; rewrite Hpickle;
    by destruct saved.
Qed.



(** C6, amended. When [corpus] has an [fname] attribute equal to the
    target [fname], [serialize] raises the [ValueError] of its guard at
    once and writes nothing: no collaborator is called (neither
    [save_corpus] nor [pickle]) and the files are exactly as before. *)
Theorem serialize_onto_own_fname fname corpus id2word index_fname progress_cnt labels fs :
  c_fname corpus = Some (PyStr fname) ->
  IndexedCorpus.serialize fname corpus id2word index_fname progress_cnt labels fs
  = mkOutcome (Raise (ValueError (erase_message fname))) fs [].
Proof. apply serialize_guard_fires. Qed.

(** C7. When the call of [save_corpus] returns [None], [serialize] raises
    [NotImplementedError] and [pickle] is not called: [save_corpus] is the
    only call, and the files are as [save_corpus] left them, so no index
    file has been written. *)
Theorem serialize_unsupported_format fname corpus id2word index_fname
    progress_cnt labels fs fs1 :
  c_fname corpus <> Some (PyStr fname) ->
  save_corpus fname corpus id2word (kwargs_passed progress_cnt labels) fs
    = (Ok PyNone, fs1) ->
  IndexedCorpus.serialize fname corpus id2word index_fname progress_cnt labels fs
  = mkOutcome (Raise (NotImplementedError unsupported_message)) fs1
      [CallSaveCorpus fname corpus id2word (kwargs_passed progress_cnt labels)].
Proof.
  intros Hguard Hsave. rewrite serialize_guard_passes by exact Hguard.
  by apply write_and_index_unsupported.
Qed.



(** C1. Let the pickling helpers load back what they saved, and let
    [save_corpus] return, for this corpus, a list with one offset per
    document of the stream.  After a run of [serialize] that succeeded,
    opening the target with the same index path loads a list of as many
    offsets as the stream had documents, and [len] of the opened corpus
    is that number on whatever files, with no call at all: the stream is
    not iterated. *)
Theorem serialize_then_open_knows_length (self : Self) fname corpus id2word
    index_fname progress_cnt labels fs :
  pickle_roundtrip ->
  one_offset_per_document fname corpus id2word fs ->
  let o := IndexedCorpus.serialize fname corpus id2word index_fname
             progress_cnt labels fs in
  let N := sum_ones (c_iter corpus fs) in
  result o = Ok tt ->
  exists (reopened : IndexedCorpus.t Self) (offsets : list PyObj),
    IndexedCorpus.__init__ self fname index_fname (files_after o)
      = mkOutcome (Ok reopened) (files_after o)
          [CallUnpickle (index_path fname index_fname)]
    /\ IndexedCorpus.index reopened = PyList offsets
    /\ length offsets = N
    /\ forall fs2,
        IndexedCorpus.__len__ reopened fs2 = mkOutcome (Ok (N, reopened)) fs2 [].
Proof.
  intros Hround Hadapter o N Hok.
  destruct (fname_attr_dec corpus fname) as [Hfire | Hpass].
  { subst o. rewrite serialize_guard_fires in Hok by exact Hfire. discriminate. }
  subst o. rewrite serialize_guard_passes in * by exact Hpass.
  destruct (save_corpus fname corpus id2word
              (kwargs_passed progress_cnt labels) fs) as [[v|e] fs1] eqn:Hsave.
  2: { erewrite write_and_index_raises in Hok by eassumption. discriminate. }
  destruct (Hadapter _ _ _ Hsave) as (offsets & -> & Hcount).
  destruct (pickle (PyList offsets) (index_path fname index_fname) fs1)
    as [saved fs2] eqn:Hpickle.
  erewrite write_and_index_offsets in * by (eassumption || discriminate).
  simpl in Hok. subst saved. simpl files_after.
  pose proof (Hround _ _ _ _ Hpickle) as Hload.
  eexists _, offsets. split; [by apply init_loaded |].
  split; [reflexivity |]. split; [exact Hcount |].
  intros fs3. unfold N. rewrite <- Hcount. by apply len_of_list_index.
Qed.

End Serializing.

(** *** With the line format and pickles kept in the files *)

Lemma file_utils_roundtrip : pickle_roundtrip (utils := file_utils).
Proof.
  intros obj path fs fs' Hsaved. simpl in *. unfold pickle_file in Hsaved.
  injection Hsaved as <-. unfold unpickle_file.
  by rewrite lookup_insert_eq.
Qed.

Lemma offsets_from_length (docs : list PyObj) (pos : nat) :
  length (LineCorpus.offsets_from pos docs) = length docs.
Proof.
  revert pos. induction docs as [| d docs IH]; intros pos; simpl;
    [reflexivity | by rewrite IH].
Qed.

Lemma line_corpus_offset_per_document (docs : list PyObj) fname id2word fs :
  one_offset_per_document (serializer := LineCorpus.serializer)
    fname (LineCorpus.of_list docs) id2word fs.
Proof.
  intros kw v fs1 Hsave. simpl in Hsave. unfold LineCorpus.save in Hsave.
  injection Hsave as <- _. eexists. split; [reflexivity |].
  simpl. apply offsets_from_length.
Qed.

Lemma doc_generator_backed_by : backed_by doc_generator "test.dat".
Proof.
  exists ∅, (Raw ("a" +:+ LineCorpus.nl)). vm_compute. discriminate.
Qed.

Section SerializeRun.
Local Existing Instance LineCorpus.serializer.
Local Existing Instance file_utils.

Lemma serialize_then_open_knows_length_witness :
  result after_serialize = Ok tt
  /\ IndexedCorpus.__init__ "test.dat" "test.dat" None mm_files
     = mkOutcome (Ok mm_corpus) mm_files [CallUnpickle "test.dat.index"]
  /\ forall fs2,
      IndexedCorpus.__len__ mm_corpus fs2 = mkOutcome (Ok (2%nat, mm_corpus)) fs2 [].
Proof.
  assert (Hok : result after_serialize = Ok tt) by (vm_compute; reflexivity).
  split; [exact Hok |].
  destruct (serialize_then_open_knows_length "test.dat" "test.dat"
              (LineCorpus.of_list [D0; D1]) PyNone None PyNone PyNone ∅
              file_utils_roundtrip
              (line_corpus_offset_per_document [D0; D1] "test.dat" PyNone ∅)
              Hok)
    as (reopened & offsets & Hinit & Hidx & Hcount & Hlen).
  assert (Hsame : reopened = mm_corpus).
  { vm_compute in Hinit. by injection Hinit as <-. }
  subst reopened. split; [exact Hinit | exact Hlen].
Defined.

Lemma serialize_onto_own_fname_witness :
  c_fname opened_corpus = Some (PyStr "test.dat")
  /\ IndexedCorpus.serialize "test.dat" opened_corpus PyNone None PyNone PyNone mm_files
     = mkOutcome (Raise (ValueError (erase_message "test.dat"))) mm_files [].
Proof.
  split; [reflexivity |].
  apply (serialize_onto_own_fname "test.dat" opened_corpus PyNone None PyNone PyNone
           mm_files).
  reflexivity.
Defined.

(** C6 as stated, on a stream that reads the target but is not a corpus
    object: a generator over the corpus of the run.  The claim is that
    [serialize] onto [test.dat] raises and writes nothing.  The generator
    has no [fname] attribute, the guard lets it through, and the run ends
    normally with [test.dat] overwritten: the format opened it for writing
    before the generator could read a line. *)
Lemma serialize_onto_generator_source_counterexample :
  backed_by doc_generator "test.dat"
  /\ result onto_generator_source = Ok tt
  /\ mm_files !! "test.dat" = Some (Raw ("human interface" +:+ LineCorpus.nl +:+
                                         "graph trees" +:+ LineCorpus.nl))
  /\ files_after onto_generator_source !! "test.dat" = Some (Raw "")
  /\ ~ (backed_by doc_generator "test.dat" ->
        exists msg,
          onto_generator_source = mkOutcome (Raise (ValueError msg)) mm_files []).
Proof.
  split; [exact doc_generator_backed_by |].
  split; [vm_compute; reflexivity |].
  split; [vm_compute; reflexivity |].
  split; [vm_compute; reflexivity |].
  intros Hclaim. destruct (Hclaim doc_generator_backed_by) as [msg Hraised].
  apply (f_equal result) in Hraised. vm_compute in Hraised. discriminate.
Qed.



End SerializeRun.

Section UnsupportedRun.
Local Existing Instance LineCorpus.unindexed_serializer.
Local Existing Instance file_utils.

Lemma serialize_unsupported_format_witness :
  IndexedCorpus.serialize "test.dat" (LineCorpus.of_list [D0; D1])
    PyNone None PyNone PyNone ∅
  = mkOutcome
      (Raise (NotImplementedError
        "called serialize on class PlainLineCorpus which doesn't support indexing!"))
      (<["test.dat" := Raw ("human interface" +:+ LineCorpus.nl +:+
                            "graph trees" +:+ LineCorpus.nl)]>
         (<["test.dat" := Raw ""]> ∅))
      [CallSaveCorpus "test.dat" (LineCorpus.of_list [D0; D1]) PyNone
         {| kw_labels := None; kw_progress_cnt := None |}].
Proof.
  refine (serialize_unsupported_format "test.dat" (LineCorpus.of_list [D0; D1])
            PyNone None PyNone PyNone ∅
            (<["test.dat" := Raw ("human interface" +:+ LineCorpus.nl +:+
                                  "graph trees" +:+ LineCorpus.nl)]>
               (<["test.dat" := Raw ""]> ∅)) _ _).
  - discriminate.
  - reflexivity.
Defined.

(** After that run there is a corpus file and no index file. *)
Example unsupported_run_leaves_no_index :
  let fs := files_after (IndexedCorpus.serialize "test.dat"
                           (LineCorpus.of_list [D0; D1]) PyNone None PyNone PyNone ∅) in
  fs !! "test.dat.index" = None /\ is_Some (fs !! "test.dat").
Proof. split; [vm_compute; reflexivity | vm_compute; eauto]. Qed.

End UnsupportedRun.

(** * Further properties *)

(** ** How a run of [serialize] ends *)

Section SerializeEnds.
Context {Self : Type} {serializer : Serializer Self} {utils : Utils}.
Implicit Types (fs : Files) (corpus : Corpus).

(** A run that returns normally went all the way. *)
Lemma serialize_ok_steps fname corpus id2word index_fname progress_cnt labels fs :
  let o := IndexedCorpus.serialize fname corpus id2word index_fname
             progress_cnt labels fs in
  result o = Ok tt ->
  c_fname corpus <> Some (PyStr fname)
  /\ exists offsets fs1,
      save_corpus fname corpus id2word (kwargs_passed progress_cnt labels) fs
        = (Ok offsets, fs1)
      /\ offsets <> PyNone
      /\ pickle offsets (index_path fname index_fname) fs1 = (Ok tt, files_after o)
      /\ calls o =
           [CallSaveCorpus fname corpus id2word (kwargs_passed progress_cnt labels);
            CallPickle offsets (index_path fname index_fname)].
Proof.
  intros o Hok. subst o.
  destruct (fname_attr_dec corpus fname) as [Hfire | Hpass].
  { rewrite serialize_guard_fires in Hok by exact Hfire. discriminate. }
  split; [exact Hpass |].
  rewrite serialize_guard_passes in * by exact Hpass.
  destruct (save_corpus fname corpus id2word
              (kwargs_passed progress_cnt labels) fs) as [[offsets|e] fs1] eqn:Hsave.
  2: { erewrite write_and_index_raises in Hok by eassumption. discriminate. }
  destruct (PyObj_None_dec offsets) as [-> | Hsome].
  { erewrite write_and_index_unsupported in Hok by eassumption. discriminate. }
  destruct (pickle offsets (index_path fname index_fname) fs1)
    as [saved fs2] eqn:Hpickle.
  erewrite write_and_index_offsets in * by eassumption.
  simpl in Hok. subst saved. exists offsets, fs1. by repeat split.
Qed.

(** X1. When [save_corpus] raises, [serialize] raises the same exception:
    [pickle] is not called, and the files are as [save_corpus] left them. *)
Theorem serialize_propagates_write_error fname corpus id2word index_fname
    progress_cnt labels fs e fs1 :
  c_fname corpus <> Some (PyStr fname) ->
  save_corpus fname corpus id2word (kwargs_passed progress_cnt labels) fs
    = (Raise e, fs1) ->
  IndexedCorpus.serialize fname corpus id2word index_fname progress_cnt labels fs
  = mkOutcome (Raise e) fs1
      [CallSaveCorpus fname corpus id2word (kwargs_passed progress_cnt labels)].
Proof.
  intros Hguard Hsave. rewrite serialize_guard_passes by exact Hguard.
  by apply write_and_index_raises.
Qed.

(** X2. When [save_corpus] has returned its offsets and [pickle] then
    raises, [serialize] raises the same exception, after both calls: the
    corpus has been written by then, and the files are as [pickle] left
    them.  Nothing is rolled back. *)
Theorem serialize_propagates_pickle_error fname corpus id2word index_fname
    progress_cnt labels fs offsets fs1 e fs2 :
  c_fname corpus <> Some (PyStr fname) ->
  save_corpus fname corpus id2word (kwargs_passed progress_cnt labels) fs
    = (Ok offsets, fs1) ->
  offsets <> PyNone ->
  pickle offsets (index_path fname index_fname) fs1 = (Raise e, fs2) ->
  IndexedCorpus.serialize fname corpus id2word index_fname progress_cnt labels fs
  = mkOutcome (Raise e) fs2
      [CallSaveCorpus fname corpus id2word (kwargs_passed progress_cnt labels);
       CallPickle offsets (index_path fname index_fname)].
Proof.
  intros Hguard Hsave Hsome Hpickle.
  rewrite serialize_guard_passes by exact Hguard.
  by eapply write_and_index_offsets.
Qed.

(** X3. A run of [serialize] returns normally only if the guard let the
    corpus through, [save_corpus] returned an object other than [None], and
    [pickle] saved that very object under the index path; these were its
    two calls, in this order, and the files are as [pickle] left them. *)
Theorem serialize_success_means_indexed fname corpus id2word index_fname
    progress_cnt labels fs :
  let o := IndexedCorpus.serialize fname corpus id2word index_fname
             progress_cnt labels fs in
  result o = Ok tt ->
  c_fname corpus <> Some (PyStr fname)
  /\ exists offsets fs1,
      save_corpus fname corpus id2word (kwargs_passed progress_cnt labels) fs
        = (Ok offsets, fs1)
      /\ offsets <> PyNone
      /\ pickle offsets (index_path fname index_fname) fs1 = (Ok tt, files_after o)
      /\ calls o =
           [CallSaveCorpus fname corpus id2word (kwargs_passed progress_cnt labels);
            CallPickle offsets (index_path fname index_fname)].
Proof. apply serialize_ok_steps. Qed.

(** X4. The guard looks at the target only.  With a corpus whose [fname]
    is [src], a target other than [src] and [src] given as the index path,
    the run is not stopped: the offsets are pickled over [src], the file
    the corpus says it reads. *)
Theorem guard_ignores_index_path fname src corpus id2word progress_cnt labels
    fs offsets fs1 saved fs2 :
  c_fname corpus = Some (PyStr src) ->
  fname <> src ->
  save_corpus fname corpus id2word (kwargs_passed progress_cnt labels) fs
    = (Ok offsets, fs1) ->
  offsets <> PyNone ->
  pickle offsets src fs1 = (saved, fs2) ->
  IndexedCorpus.serialize fname corpus id2word (Some src) progress_cnt labels fs
  = mkOutcome saved fs2
      [CallSaveCorpus fname corpus id2word (kwargs_passed progress_cnt labels);
       CallPickle offsets src].
Proof.
  intros Hattr Hne Hsave Hsome Hpickle.
  rewrite serialize_guard_passes by (rewrite Hattr; congruence).
  by apply (write_and_index_offsets fname corpus id2word (Some src)
              progress_cnt labels fs offsets fs1 saved fs2).
Qed.

(** X5. Serialize, open, subscript.  Let the pickling helpers load back
    what they saved.  After a run of [serialize] in which [save_corpus]
    returned the list [offsets], opening the target with the same index
    path gives a corpus whose index is that list, and for every position
    [i] of the list [corpus[i]] is the outcome of [docbyoffset] on the
    [i]-th offset [save_corpus] returned: the order is kept and nothing is
    altered on the way. *)
Theorem getitem_after_serialize (self : Self) fname corpus id2word index_fname
    progress_cnt labels fs offsets fs1 :
  pickle_roundtrip ->
  let o := IndexedCorpus.serialize fname corpus id2word index_fname
             progress_cnt labels fs in
  result o = Ok tt ->
  save_corpus fname corpus id2word (kwargs_passed progress_cnt labels) fs
    = (Ok (PyList offsets), fs1) ->
  let reopened := {| IndexedCorpus.sub := self;
                     IndexedCorpus.index := PyList offsets;
                     IndexedCorpus.length := None |} in
  IndexedCorpus.__init__ self fname index_fname (files_after o)
    = mkOutcome (Ok reopened) (files_after o)
        [CallUnpickle (index_path fname index_fname)]
  /\ forall (i : nat) (offset : PyObj) (fs2 : Files),
      offsets !! i = Some offset ->
      IndexedCorpus.__getitem__ reopened (Z.of_nat i) fs2
      = invoke (CallDocByOffset offset) (docbyoffset self offset) fs2.
Proof.
  intros Hround o Hok Hsave reopened.
  destruct (serialize_ok_steps fname corpus id2word index_fname progress_cnt
              labels fs Hok) as (_ & offsets' & fs1' & Hsave' & _ & Hpickle & _).
  rewrite Hsave in Hsave'. injection Hsave' as <- <-.
  fold o in Hpickle. apply Hround in Hpickle. split.
  - by apply init_loaded.
  - intros i offset fs2 Hi.
    apply getitem_delegates; [discriminate |]. simpl.
    pose proof (lookup_lt_Some _ _ _ Hi) as Hlt.
    rewrite norm_index_nonneg by lia.
    by rewrite Nat2Z.id, Hi.
Qed.

End SerializeEnds.

(** ** Indexes of other shapes, and no index *)

Section Shapes.
Context {Self : Type} {serializer : Serializer Self} {utils : Utils}.
Implicit Types (self : IndexedCorpus.t Self) (fs : Files).

(** X6. An empty list is an index all the same: the tests are against
    [None], not for emptiness.  [len(corpus)] is 0 without a pass over the
    stream, and [corpus[docno]] raises [IndexError] for every [docno], not
    the [RuntimeError] of a corpus without index; nothing is called. *)
Theorem empty_index_is_an_index self fs :
  IndexedCorpus.index self = PyList [] ->
  indexed self = true
  /\ IndexedCorpus.__len__ self fs = mkOutcome (Ok (0%nat, self)) fs []
  /\ forall docno,
      IndexedCorpus.__getitem__ self docno fs = mkOutcome (Raise IndexError) fs [].
Proof.
  intros Hidx. split; [| split].
  - unfold indexed. by rewrite Hidx.
  - by apply (len_of_list_index self []).
  - intros docno. apply getitem_lookup_fails; rewrite Hidx; [discriminate |].
    apply py_getitem_list_out. apply norm_index_out. simpl. lia.
Qed.

(** X7. What [unpickle] returns is taken as the index unchecked.  When it
    returns an integer, [__init__] gives a corpus in indexed state on which
    [len(corpus)] and [corpus[docno]] raise [TypeError]: [len] does not
    fall back to counting the stream, and [docbyoffset] is not called. *)
Theorem integer_index_is_not_checked (self : Self) fname index_fname
    (fs fs' : Files) (n : Z) :
  unpickle (index_path fname index_fname) fs = (Ok (PyInt n), fs') ->
  exists corpus : IndexedCorpus.t Self,
    IndexedCorpus.__init__ self fname index_fname fs
      = mkOutcome (Ok corpus) fs' [CallUnpickle (index_path fname index_fname)]
    /\ indexed corpus = true
    /\ (forall fs2,
          IndexedCorpus.__len__ corpus fs2 = mkOutcome (Raise TypeError) fs2 [])
    /\ (forall docno fs2,
          IndexedCorpus.__getitem__ corpus docno fs2
          = mkOutcome (Raise TypeError) fs2 []).
Proof.
  intros Hload. eexists. split; [by apply init_loaded |].
  split; [reflexivity |]. split; [reflexivity |].
  intros docno fs2. by apply getitem_lookup_fails.
Qed.

(** X8. When loading the index fails, the opened corpus can still be
    counted but not subscripted: [corpus[docno]] raises [RuntimeError] for
    every [docno]; [len(corpus)] counts the stream in one pass; and after
    that pass [corpus[docno]] raises [RuntimeError] as before, for counting
    the documents does not build an index. *)
Theorem failed_load_leaves_len_only (self : Self) fname index_fname
    (fs fs' : Files) (e : Exn) :
  unpickle (index_path fname index_fname) fs = (Raise e, fs') ->
  exists corpus : IndexedCorpus.t Self,
    IndexedCorpus.__init__ self fname index_fname fs
      = mkOutcome (Ok corpus) fs' [CallUnpickle (index_path fname index_fname)]
    /\ (forall docno fs2,
          IndexedCorpus.__getitem__ corpus docno fs2
          = mkOutcome
              (Raise (RuntimeError "cannot call corpus[docid] without an index"))
              fs2 [])
    /\ (forall fs2 docs fs3,
          __iter__ self fs2 = (Ok docs, fs3) ->
          exists counted : IndexedCorpus.t Self,
            IndexedCorpus.__len__ corpus fs2
              = mkOutcome (Ok (length docs, counted)) fs3 [CallIter]
            /\ IndexedCorpus.length counted = Some (length docs)
            /\ forall docno fs4,
                IndexedCorpus.__getitem__ counted docno fs4
                = mkOutcome
                    (Raise (RuntimeError "cannot call corpus[docid] without an index"))
                    fs4 []).
Proof.
  intros Hload. eexists. split; [by eapply init_load_failed |].
  split; [reflexivity |].
  intros fs2 docs fs3 Hiter. eexists. split; [| split].
  - unfold IndexedCorpus.__len__, bind, invoke. simpl. rewrite Hiter. reflexivity.
  - reflexivity.
  - reflexivity.
Qed.

(** X9. When the pass over the stream raises, [len(corpus)] raises the
    same exception after that one pass, and no count is stored: the
    instance is the one the call started with, so that a later call, on
    files where the pass goes through, counts the stream then. *)
Theorem len_propagates_scan_error self fs e fs' :
  IndexedCorpus.index self = PyNone ->
  IndexedCorpus.length self = None ->
  __iter__ (IndexedCorpus.sub self) fs = (Raise e, fs') ->
  IndexedCorpus.__len__ self fs = mkOutcome (Raise e) fs' [CallIter]
  /\ forall fs2 docs fs3,
      __iter__ (IndexedCorpus.sub self) fs2 = (Ok docs, fs3) ->
      IndexedCorpus.__len__ self fs2
      = mkOutcome (Ok (length docs, with_length self (length docs))) fs3 [CallIter].
Proof.
  intros Hidx Hlen Hiter. split.
  - unfold IndexedCorpus.__len__. rewrite Hidx, Hlen. simpl.
    unfold bind, invoke. by rewrite Hiter.
  - intros fs2 docs fs3 Hok. unfold IndexedCorpus.__len__. rewrite Hidx, Hlen.
    simpl. unfold bind, invoke, with_length. by rewrite Hok, Hidx.
Qed.

End Shapes.

(** *** On the further runs *)

Lemma serialize_propagates_write_error_witness :
  IndexedCorpus.serialize (serializer := readonly_serializer) (utils := file_utils)
    "test.dat" (LineCorpus.of_list [D0; D1]) PyNone None PyNone PyNone ∅
  = mkOutcome (Raise (IOError "Permission denied: test.dat")) ∅
      [CallSaveCorpus "test.dat" (LineCorpus.of_list [D0; D1]) PyNone
         {| kw_labels := None; kw_progress_cnt := None |}].
Proof.
  refine (serialize_propagates_write_error (serializer := readonly_serializer)
            (utils := file_utils)
            "test.dat" (LineCorpus.of_list [D0; D1]) PyNone None PyNone PyNone ∅
            (IOError "Permission denied: test.dat") ∅ _ _).
  - discriminate.
  - reflexivity.
Defined.

Lemma serialize_propagates_pickle_error_witness :
  IndexedCorpus.serialize (serializer := LineCorpus.serializer)
    (utils := full_disk_utils)
    "test.dat" (LineCorpus.of_list [D0; D1]) PyNone None PyNone PyNone ∅
  = mkOutcome (Raise (IOError "No space left on device"))
      (<["test.dat" := Raw ("human interface" +:+ LineCorpus.nl +:+
                            "graph trees" +:+ LineCorpus.nl)]>
         (<["test.dat" := Raw ""]> ∅))
      [CallSaveCorpus "test.dat" (LineCorpus.of_list [D0; D1]) PyNone
         {| kw_labels := None; kw_progress_cnt := None |};
       CallPickle (PyList [PyInt 0; PyInt 16]) "test.dat.index"].
Proof.
  refine (serialize_propagates_pickle_error (serializer := LineCorpus.serializer)
            (utils := full_disk_utils)
            "test.dat" (LineCorpus.of_list [D0; D1]) PyNone None PyNone PyNone ∅
            (PyList [PyInt 0; PyInt 16])
            (<["test.dat" := Raw ("human interface" +:+ LineCorpus.nl +:+
                                  "graph trees" +:+ LineCorpus.nl)]>
               (<["test.dat" := Raw ""]> ∅))
            (IOError "No space left on device")
            (<["test.dat" := Raw ("human interface" +:+ LineCorpus.nl +:+
                                  "graph trees" +:+ LineCorpus.nl)]>
               (<["test.dat" := Raw ""]> ∅))
            _ _ _ _).
  - discriminate.
  - reflexivity.
  - discriminate.
  - reflexivity.
Defined.

Section FurtherRuns.
Local Existing Instance LineCorpus.serializer.
Local Existing Instance file_utils.

Lemma serialize_success_means_indexed_witness :
  result after_serialize = Ok tt
  /\ calls after_serialize =
       [CallSaveCorpus "test.dat" (LineCorpus.of_list [D0; D1]) PyNone
          {| kw_labels := None; kw_progress_cnt := None |};
        CallPickle (PyList [PyInt 0; PyInt 16]) "test.dat.index"].
Proof.
  assert (Hok : result after_serialize = Ok tt) by (vm_compute; reflexivity).
  split; [exact Hok |].
  destruct (serialize_success_means_indexed "test.dat" (LineCorpus.of_list [D0; D1])
              PyNone None PyNone PyNone ∅ Hok)
    as (_ & offsets & fs1 & Hsave & _ & _ & Hcalls).
  vm_compute in Hsave. injection Hsave as <- _. exact Hcalls.
Defined.

Lemma guard_ignores_index_path_witness :
  c_fname opened_corpus = Some (PyStr "test.dat")
  /\ "copy.dat" <> "test.dat"
  /\ IndexedCorpus.serialize "copy.dat" opened_corpus PyNone (Some "test.dat")
       PyNone PyNone mm_files
     = mkOutcome (Ok tt)
         (<["test.dat" := Pickled (PyList [PyInt 0; PyInt 16])]>
            (<["copy.dat" := Raw ("human interface" +:+ LineCorpus.nl +:+
                                  "graph trees" +:+ LineCorpus.nl)]>
               (<["copy.dat" := Raw ""]> mm_files)))
         [CallSaveCorpus "copy.dat" opened_corpus PyNone
            {| kw_labels := None; kw_progress_cnt := None |};
          CallPickle (PyList [PyInt 0; PyInt 16]) "test.dat"].
Proof.
  split; [reflexivity |]. split; [discriminate |].
  refine (guard_ignores_index_path "copy.dat" "test.dat" opened_corpus PyNone
            PyNone PyNone mm_files (PyList [PyInt 0; PyInt 16])
            (<["copy.dat" := Raw ("human interface" +:+ LineCorpus.nl +:+
                                  "graph trees" +:+ LineCorpus.nl)]>
               (<["copy.dat" := Raw ""]> mm_files))
            (Ok tt) _ _ _ _ _ _).
  - reflexivity.
  - discriminate.
  - vm_compute. reflexivity.
  - discriminate.
  - reflexivity.
Defined.

Lemma getitem_after_serialize_witness :
  IndexedCorpus.__init__ "test.dat" "test.dat" None mm_files
    = mkOutcome (Ok mm_corpus) mm_files [CallUnpickle "test.dat.index"]
  /\ IndexedCorpus.__getitem__ mm_corpus 1 mm_files
     = mkOutcome (Ok D1) mm_files [CallDocByOffset (PyInt 16)].
Proof.
  assert (Hok : result after_serialize = Ok tt) by (vm_compute; reflexivity).
  destruct (getitem_after_serialize "test.dat" "test.dat"
              (LineCorpus.of_list [D0; D1]) PyNone None PyNone PyNone ∅
              [PyInt 0; PyInt 16]
              (<["test.dat" := Raw ("human interface" +:+ LineCorpus.nl +:+
                                    "graph trees" +:+ LineCorpus.nl)]>
                 (<["test.dat" := Raw ""]> ∅))
              file_utils_roundtrip Hok eq_refl) as [Hinit Hget].
  split; [exact Hinit |].
  pose proof (Hget 1%nat (PyInt 16) mm_files eq_refl) as Hsecond.
  change (Z.of_nat 1) with 1 in Hsecond. unfold mm_corpus.
  rewrite Hsecond. vm_compute. reflexivity.
Defined.

Lemma empty_index_is_an_index_witness :
  IndexedCorpus.index empty_corpus = PyList []
  /\ IndexedCorpus.__len__ empty_corpus mm_files
     = mkOutcome (Ok (0%nat, empty_corpus)) mm_files []
  /\ IndexedCorpus.__getitem__ empty_corpus 0 mm_files
     = mkOutcome (Raise IndexError) mm_files [].
Proof.
  split; [reflexivity |].
  destruct (empty_index_is_an_index empty_corpus mm_files eq_refl)
    as (_ & Hlen & Hget).
  split; [exact Hlen | exact (Hget 0)].
Defined.

Lemma integer_index_is_not_checked_witness :
  exists corpus : IndexedCorpus.t string,
    IndexedCorpus.__init__ "test.dat" "test.dat" None int_index_files
      = mkOutcome (Ok corpus) int_index_files [CallUnpickle "test.dat.index"]
    /\ IndexedCorpus.index corpus = PyInt 7
    /\ IndexedCorpus.__len__ corpus int_index_files
       = mkOutcome (Raise TypeError) int_index_files []
    /\ IndexedCorpus.__getitem__ corpus 0 int_index_files
       = mkOutcome (Raise TypeError) int_index_files [].
Proof.
  destruct (integer_index_is_not_checked "test.dat" "test.dat" None
              int_index_files int_index_files 7)
    as (corpus & Hinit & _ & Hlen & Hget); [vm_compute; reflexivity |].
  exists corpus. split; [exact Hinit |].
  split; [| split; [exact (Hlen int_index_files) | exact (Hget 0 int_index_files)]].
  vm_compute in Hinit. by injection Hinit as <-.
Defined.

Lemma failed_load_leaves_len_only_witness :
  exists corpus counted : IndexedCorpus.t string,
    IndexedCorpus.__init__ "test.dat" "test.dat" None no_index_files
      = mkOutcome (Ok corpus) no_index_files [CallUnpickle "test.dat.index"]
    /\ IndexedCorpus.__getitem__ corpus 0 no_index_files
       = mkOutcome
           (Raise (RuntimeError "cannot call corpus[docid] without an index"))
           no_index_files []
    /\ IndexedCorpus.__len__ corpus no_index_files
       = mkOutcome (Ok (2%nat, counted)) no_index_files [CallIter]
    /\ IndexedCorpus.__getitem__ counted 0 no_index_files
       = mkOutcome
           (Raise (RuntimeError "cannot call corpus[docid] without an index"))
           no_index_files [].
Proof.
  destruct (failed_load_leaves_len_only "test.dat" "test.dat" None
              no_index_files no_index_files
              (IOError "No such file or directory: test.dat.index"))
    as (corpus & Hinit & Hget & Hlen); [vm_compute; reflexivity |].
  destruct (Hlen no_index_files [D0; D1] no_index_files)
    as (counted & Hcount & _ & Hstill); [vm_compute; reflexivity |].
  exists corpus, counted.
  split; [exact Hinit |]. split; [exact (Hget 0 no_index_files) |].
  split; [exact Hcount | exact (Hstill 0 no_index_files)].
Defined.

Lemma len_propagates_scan_error_witness :
  IndexedCorpus.__len__ unindexed_corpus ∅
    = mkOutcome (Raise (IOError "No such file or directory: test.dat")) ∅ [CallIter]
  /\ IndexedCorpus.__len__ unindexed_corpus mm_files
     = mkOutcome (Ok (2%nat, with_length unindexed_corpus 2)) mm_files [CallIter].
Proof.
  destruct (len_propagates_scan_error unindexed_corpus ∅
              (IOError "No such file or directory: test.dat") ∅)
    as [Hraise Hlater];
    [reflexivity | reflexivity | vm_compute; reflexivity |].
  split; [exact Hraise |].
  apply (Hlater mm_files [D0; D1] mm_files). vm_compute. reflexivity.
Defined.

End FurtherRuns.
